(** * Regular polygons with cached derived properties, and sequences of them

    A shallow embedding of [polygons.py]: the class [Polygon] (two primitives,
    five [cached_property] getters with call counters, invalidation on
    mutation, [__eq__] and [__gt__]) and the class [Polygons] (its iterator
    and [max_efficiency_polygon]).

    Objects are records; a method that mutates [self] is a function from the
    state before to a result and the state after.  The entries a
    [cached_property] leaves in the instance dictionary are a [gmap] from
    attribute names to values, as [_invalidate_cache] deletes them by name. *)

From Stdlib Require Import ZArith Lia Reals Lra Ascii.
From Equations Require Import Equations.
From Equations.Prop Require Import Logic.
From stdpp Require Import gmap strings list pretty.

Local Open Scope Z_scope.

(** ** Python numbers

    [_R] is whatever the caller passes (an [int] or a [float]) and the getters
    mix it with [int]s and with [math.pi], [math.sin] and [math.cos].  The
    classes take the arithmetic through an interface: [num] is the type of
    Python numbers, [of_int] the [int]s among them, and each operation is the
    Python operator: [num_mul] is [*], [num_truediv] is [/], [num_gt] is [>],
    [num_eq] is [==].  The operations are total: an [int] beyond the range of
    a [float] meeting a [float] (an [OverflowError]) is outside the model, and
    [num_truediv] alone is used where the divisor cannot be zero
    ([py_truediv] below is [/] with its [ZeroDivisionError]). *)

Class Arith := {
  num : Type;
  of_int : Z → num;
  num_mul : num → num → num;
  num_truediv : num → num → num;
  is_zero : num → bool;
  num_gt : num → num → bool;
  num_eq : num → num → bool
}.

(** The [math] module: [math.pi], [math.sin], [math.cos]. *)
Class Math (A : Arith) := {
  math_pi : num;
  math_sin : num → num;
  math_cos : num → num
}.

(** [str] of a number, as an f-string formats it. *)
Class Str (A : Arith) := {
  num_str : num → string
}.

Inductive exn := ValueError | ZeroDivisionError | StopIteration.

Inductive outcome (T : Type) :=
| Ok (v : T)
| Raise (e : exn).
Arguments Ok {T} v.
Arguments Raise {T} e.

Definition py_truediv `{Arith} (x y : num) : outcome num :=
  if is_zero y then Raise ZeroDivisionError else Ok (num_truediv x y).

(** ** class Polygon *)

Module Polygon.
Section Polygon.
Context {A : Arith} {M : Math A}.

(** The instance: the attributes [__init__] sets, and [__dict__] for the
    entries the cached properties add and [_invalidate_cache] deletes. *)
Record t := mk {
  _n : Z;
  _R : num;
  _interior_angle_calls : Z;
  _side_length_calls : Z;
  _apothem_calls : Z;
  _area_calls : Z;
  _perimeter_calls : Z;
  __dict__ : gmap string num
}.

Definition __init__ (n : Z) (R : num) : outcome t :=
  if n <? 3 then Raise ValueError
  else Ok (mk n R 0 0 0 0 0 ∅).

(** [f'Polygon(n={self._n}, R={self._R})']: an [int] is written in decimal
    digits, with a minus sign when negative. *)
Definition __repr__ `{!Str A} (self : t) : string :=
  "Polygon(n=" +:+ pretty (_n self) +:+ ", R=" +:+ num_str (_R self) +:+ ")".

Definition set__dict__ (d : gmap string num) (self : t) : t :=
  mk (_n self) (_R self) (_interior_angle_calls self) (_side_length_calls self)
     (_apothem_calls self) (_area_calls self) (_perimeter_calls self) d.

Definition count_vertices (self : t) : Z := _n self.
Definition count_edges (self : t) : Z := _n self.
Definition circumradius (self : t) : num := _R self.

(** [for attr in [...]: if attr in self.__dict__: del self.__dict__[attr]] *)
Definition cached_attrs : list string :=
  ["side_length"; "apothem"; "area"; "perimeter"; "interior_angle"]%string.

Definition _invalidate_cache (self : t) : t :=
  set__dict__
    (foldl (λ d attr, if bool_decide (is_Some (d !! attr)) then delete attr d else d)
           (__dict__ self) cached_attrs)
    self.

(** The setters.  A setter that raises has not touched [self]. *)
Definition set_count_vertices (new_n : Z) (self : t) : outcome unit * t :=
  if new_n <? 3 then (Raise ValueError, self)
  else
    (Ok (),
     _invalidate_cache
       (mk new_n (_R self) (_interior_angle_calls self) (_side_length_calls self)
           (_apothem_calls self) (_area_calls self) (_perimeter_calls self)
           (__dict__ self))).

Definition set_circumradius (new_R : num) (self : t) : outcome unit * t :=
  (Ok (),
   _invalidate_cache
     (mk (_n self) new_R (_interior_angle_calls self) (_side_length_calls self)
         (_apothem_calls self) (_area_calls self) (_perimeter_calls self)
         (__dict__ self))).

(** [functools.cached_property]: the value found under the attribute's
    name in the instance dictionary, or else the function is called and
    its result stored there. *)
Definition cached_property (attrname : string) (func : t → num * t) (self : t)
  : num * t :=
  match __dict__ self !! attrname with
  | Some val => (val, self)
  | None =>
      let '(val, self) := func self in
      (val, set__dict__ (<[attrname := val]> (__dict__ self)) self)
  end.

Definition interior_angle : t → num * t :=
  cached_property "interior_angle" (λ self,
    let self := mk (_n self) (_R self) (_interior_angle_calls self + 1)
                   (_side_length_calls self) (_apothem_calls self)
                   (_area_calls self) (_perimeter_calls self) (__dict__ self) in
    (num_truediv (of_int ((_n self - 2) * 180)) (of_int (_n self)), self)).

Definition side_length : t → num * t :=
  cached_property "side_length" (λ self,
    let self := mk (_n self) (_R self) (_interior_angle_calls self)
                   (_side_length_calls self + 1) (_apothem_calls self)
                   (_area_calls self) (_perimeter_calls self) (__dict__ self) in
    (num_mul (num_mul (of_int 2) (_R self))
         (math_sin (num_truediv math_pi (of_int (_n self)))), self)).

Definition apothem : t → num * t :=
  cached_property "apothem" (λ self,
    let self := mk (_n self) (_R self) (_interior_angle_calls self)
                   (_side_length_calls self) (_apothem_calls self + 1)
                   (_area_calls self) (_perimeter_calls self) (__dict__ self) in
    (num_mul (_R self) (math_cos (num_truediv math_pi (of_int (_n self)))), self)).

Definition area : t → num * t :=
  cached_property "area" (λ self,
    let self := mk (_n self) (_R self) (_interior_angle_calls self)
                   (_side_length_calls self) (_apothem_calls self)
                   (_area_calls self + 1) (_perimeter_calls self) (__dict__ self) in
    let half_n := num_truediv (of_int (_n self)) (of_int 2) in
    let '(s, self) := side_length self in
    let '(a, self) := apothem self in
    (num_mul (num_mul half_n s) a, self)).

Definition perimeter : t → num * t :=
  cached_property "perimeter" (λ self,
    let self := mk (_n self) (_R self) (_interior_angle_calls self)
                   (_side_length_calls self) (_apothem_calls self)
                   (_area_calls self) (_perimeter_calls self + 1) (__dict__ self) in
    let n := of_int (_n self) in
    let '(s, self) := side_length self in
    (num_mul n s, self)).

(** [__eq__] and [__gt__] take any object as [other] and answer with a
    [bool] or with the constant [NotImplemented]. *)
Inductive object :=
| PolygonObject (p : t)
| NumberObject (x : num)
| StrObject (s : string)
| NoneObject.

Inductive richcmp :=
| Bool (b : bool)
| NotImplemented.

(** [isinstance(other, self.__class__)] *)
Definition isinstance_Polygon (other : object) : option t :=
  match other with
  | PolygonObject p => Some p
  | _ => None
  end.

Definition __eq__ (self : t) (other : object) : richcmp :=
  match isinstance_Polygon other with
  | Some other =>
      Bool ((count_edges self =? count_edges other)
            && num_eq (circumradius self) (circumradius other))
  | None => NotImplemented
  end.

Definition __gt__ (self : t) (other : object) : richcmp :=
  match isinstance_Polygon other with
  | Some other => Bool (count_vertices self >? count_vertices other)
  | None => NotImplemented
  end.

(** *** The five derived properties, by name *)

Inductive derived := InteriorAngle | SideLength | Apothem | Area | Perimeter.

#[global] Instance derived_eq_dec : EqDecision derived.
Proof. solve_decision. Defined.

Definition attrname (d : derived) : string :=
  match d with
  | InteriorAngle => "interior_angle"
  | SideLength => "side_length"
  | Apothem => "apothem"
  | Area => "area"
  | Perimeter => "perimeter"
  end.

Definition getter (d : derived) : t → num * t :=
  match d with
  | InteriorAngle => interior_angle
  | SideLength => side_length
  | Apothem => apothem
  | Area => area
  | Perimeter => perimeter
  end.

Definition calls (d : derived) (self : t) : Z :=
  match d with
  | InteriorAngle => _interior_angle_calls self
  | SideLength => _side_length_calls self
  | Apothem => _apothem_calls self
  | Area => _area_calls self
  | Perimeter => _perimeter_calls self
  end.

(** *** The life of an instance: any sequence of assignments to the two
    primitives and of reads of the derived properties. *)

Inductive call :=
| SetCountVertices (new_n : Z)
| SetCircumradius (new_R : num)
| Read (d : derived).

Definition exec (self : t) (c : call) : t :=
  match c with
  | SetCountVertices new_n => (set_count_vertices new_n self).2
  | SetCircumradius new_R => (set_circumradius new_R self).2
  | Read d => (getter d self).2
  end.

Definition run (self : t) (cs : list call) : t := foldl exec self cs.

End Polygon.
End Polygon.

(** ** class Polygons.PolygonIterator *)

Module PolygonIterator.
Section PolygonIterator.
Context {A : Arith} {M : Math A}.

Record t := mk {
  _m : Z;
  _R : num;
  _index : Z
}.

Definition __init__ (m : Z) (R : num) : t := mk m R 3.

Definition __iter__ (self : t) : t := self.

Definition __next__ (self : t) : outcome Polygon.t * t :=
  if _index self >? _m self then (Raise StopIteration, self)
  else
    match Polygon.__init__ (_index self) (_R self) with
    | Raise e => (Raise e, self)
    | Ok polygon => (Ok polygon, mk (_m self) (_R self) (_index self + 1))
    end.

(** What is left to yield is bounded by [_m + 1 - _index]. *)
Definition remaining (self : t) : nat := Z.to_nat (_m self + 1 - _index self).

(** Run after [__next__] has returned an item, [remaining] has decreased. *)
Ltac next_decreases :=
  intros; cbv beta in *;
  match goal with
  | H : __next__ ?it = (Ok _, _) |- _ =>
      unfold __next__, remaining in *;
      destruct (_index it >? _m it) eqn:?; [discriminate|];
      destruct (Polygon.__init__ _ _); [|discriminate];
      injection H as _ <-; simpl; lia
  end.

(** One pass of a [for] loop over the iterator: the items [__next__]
    returns, in order, up to the exception that ends the pass. *)
Equations consume (self : t) : list Polygon.t * exn * t
  by wf (remaining self) lt :=
consume self with inspect (__next__ self) := {
  | exist _ (Raise e, self') _ => ([], e, self')
  | exist _ (Ok polygon, self') Hnext =>
      let '(items, e, last) := consume self' in
      (polygon :: items, e, last) }.
Next Obligation. next_decreases. Qed.

(** [max(iterator, key=key)]: the first item is the maximum so far; a later
    item replaces it when its key is [>] the key of the maximum so far. *)
Equations max_loop (key : Polygon.t → outcome num * Polygon.t)
    (self : t) (maxitem : Polygon.t) (maxval : num) : outcome Polygon.t
  by wf (remaining self) lt :=
max_loop key self maxitem maxval with inspect (__next__ self) := {
  | exist _ (Raise StopIteration, _) _ => Ok maxitem
  | exist _ (Raise e, _) _ => Raise e
  | exist _ (Ok item, self') Hnext with key item := {
      | (Raise e, _) => Raise e
      | (Ok val, item') =>
          if num_gt val maxval then max_loop key self' item' val
          else max_loop key self' maxitem maxval } }.
Next Obligation. next_decreases. Qed.
Next Obligation. next_decreases. Qed.

Definition max (key : Polygon.t → outcome num * Polygon.t) (self : t)
  : outcome Polygon.t :=
  match __next__ self with
  | (Raise StopIteration, _) => Raise ValueError
  | (Raise e, _) => Raise e
  | (Ok item, self) =>
      match key item with
      | (Raise e, _) => Raise e
      | (Ok val, item) => max_loop key self item val
      end
  end.

End PolygonIterator.
End PolygonIterator.

(** ** class Polygons *)

Module Polygons.
Section Polygons.
Context {A : Arith} {M : Math A}.

Record t := mk {
  _m : Z;
  _R : num
}.

Definition __init__ (m : Z) (R : num) : outcome t :=
  if m <? 3 then Raise ValueError else Ok (mk m R).

Definition __len__ (self : t) : Z := _m self - 2.

(** [f'Polygons(m={self._m}, R={self._R})'] *)
Definition __repr__ `{!Str A} (self : t) : string :=
  "Polygons(m=" +:+ pretty (_m self) +:+ ", R=" +:+ num_str (_R self) +:+ ")".

Definition __iter__ (self : t) : PolygonIterator.t :=
  PolygonIterator.__init__ (_m self) (_R self).

(** [lambda p: p.area/p.perimeter] *)
Definition efficiency (p : Polygon.t) : outcome num * Polygon.t :=
  let '(a, p) := Polygon.area p in
  let '(per, p) := Polygon.perimeter p in
  (py_truediv a per, p).

Definition max_efficiency_polygon (self : t) : outcome Polygon.t :=
  PolygonIterator.max efficiency (__iter__ self).

End Polygons.
End Polygons.

(** ** Two arithmetics

    [Exact] computes in the real numbers: the arithmetic the formulas of the
    getters have in mind.  [Binary64] is the arithmetic the interpreter runs:
    [int]s of any size and [float]s in IEEE 754 binary64, every operation
    rounding its exact result to the nearest [float], ties to even. *)

Module Exact.

Definition arith : Arith := {|
  num := R;
  of_int := IZR;
  num_mul := Rmult;
  num_truediv := Rdiv;
  is_zero x := if Req_dec_T x 0 then true else false;
  num_gt x y := if Rgt_dec x y then true else false;
  num_eq x y := if Req_dec_T x y then true else false
|}.

Definition math : Math arith := {|
  math_pi := PI : @num arith;
  math_sin := sin : @num arith → @num arith;
  math_cos := cos : @num arith → @num arith
|}.

End Exact.

Module Binary64.

(** A [float]: [Finite m e] is [m * 2^e]; signed zeros are not told apart
    (no operation of the classes can see the sign of a zero). *)
Inductive float :=
| Finite (m e : Z)
| Infinity (negative : bool)
| NaN.

Inductive number :=
| Int (z : Z)
| Float (x : float).

(** The integer nearest to [n / d] for [0 < d], ties to even. *)
Definition rne_div (n d : Z) : Z :=
  let q := n / d in
  match 2 * (n mod d) ?= d with
  | Lt => q
  | Gt => q + 1
  | Eq => if Z.even q then q else q + 1
  end.

(** [floor (log2 (a / b))] for [0 < a] and [0 < b]. *)
Definition floor_log2_ratio (a b : Z) : Z :=
  let d := Z.log2 a - Z.log2 b in
  if (if 0 <=? d then a <? b * 2 ^ d else a * 2 ^ (- d) <? b) then d - 1 else d.

(** [a / b] for [0 < a] and [0 < b], to 53 significant bits, exponent at
    least -1074 (subnormals); beyond the largest [float] it is infinite. *)
Definition round_pos (a b : Z) : float :=
  let e := Z.max (floor_log2_ratio a b - 52) (-1074) in
  let m := if 0 <=? e then rne_div a (b * 2 ^ e) else rne_div (a * 2 ^ (- e)) b in
  if (971 <? e) || ((e =? 971) && (m =? 2 ^ 53)) then Infinity false
  else Finite m e.

Definition neg (x : float) : float :=
  match x with
  | Finite m e => Finite (- m) e
  | Infinity s => Infinity (negb s)
  | NaN => NaN
  end.

(** [a / b] rounded, for [b ≠ 0]. *)
Definition round (a b : Z) : float :=
  if b =? 0 then NaN
  else if a =? 0 then Finite 0 0
  else
    let r := round_pos (Z.abs a) (Z.abs b) in
    if xorb (a <? 0) (b <? 0) then neg r else r.

(** [m * 2^e] rounded. *)
Definition round_dyadic (m e : Z) : float :=
  if 0 <=? e then round (m * 2 ^ e) 1 else round m (2 ^ (- e)).

(** An [int] operand is converted when the other operand is a [float]. *)
Definition to_float (x : number) : float :=
  match x with
  | Int z => round z 1
  | Float x => x
  end.

Definition fmul (x y : float) : float :=
  match x, y with
  | NaN, _ | _, NaN => NaN
  | Infinity s, Infinity s' => Infinity (xorb s s')
  | Infinity s, Finite m _ | Finite m _, Infinity s =>
      if m =? 0 then NaN else Infinity (xorb s (m <? 0))
  | Finite m e, Finite m' e' => round_dyadic (m * m') (e + e')
  end.

Definition fdiv (x y : float) : float :=
  match x, y with
  | NaN, _ | _, NaN => NaN
  | Infinity _, Infinity _ => NaN
  | Infinity s, Finite m _ => Infinity (xorb s (m <? 0))
  | Finite _ _, Infinity _ => Finite 0 0
  | Finite m e, Finite m' e' =>
      if 0 <=? e - e' then round (m * 2 ^ (e - e')) m'
      else round m (m' * 2 ^ (e' - e))
  end.

(** Comparison of the exact values; nothing compares with a NaN. *)
Definition fcompare (x y : float) : option comparison :=
  match x, y with
  | NaN, _ | _, NaN => None
  | Infinity s, Infinity s' =>
      Some (if s then (if s' then Eq else Lt) else (if s' then Gt else Eq))
  | Infinity s, Finite _ _ => Some (if s then Lt else Gt)
  | Finite _ _, Infinity s => Some (if s then Gt else Lt)
  | Finite m e, Finite m' e' =>
      let k := Z.min e e' in
      Some (m * 2 ^ (e - k) ?= m' * 2 ^ (e' - k))
  end.

(** [int]s and [float]s compare by value: an [int] is [m * 2^0]. *)
Definition exact (x : number) : float :=
  match x with
  | Int z => Finite z 0
  | Float x => x
  end.

Definition arith : Arith := {|
  num := number;
  of_int := Int;
  num_mul x y :=
    match x, y with
    | Int a, Int b => Int (a * b)
    | _, _ => Float (fmul (to_float x) (to_float y))
    end;
  num_truediv x y :=
    match x, y with
    | Int a, Int b => Float (round a b)
    | _, _ => Float (fdiv (to_float x) (to_float y))
    end;
  is_zero x :=
    match fcompare (exact x) (Finite 0 0) with Some Eq => true | _ => false end;
  num_gt x y :=
    match fcompare (exact x) (exact y) with Some Gt => true | _ => false end;
  num_eq x y :=
    match fcompare (exact x) (exact y) with Some Eq => true | _ => false end
|}.

(** Not a finite [float]: an infinity or a NaN. *)
Definition unbounded (x : float) : Prop :=
  match x with
  | Finite _ _ => False
  | _ => True
  end.

(** [2.0 ** 1023], a circumradius whose double overflows. *)
Definition huge : @num arith := Float (Finite 1 1023).

(** [math.pi] is the [float] nearest to π; [math.sin] and [math.cos] are
    whatever the platform's C library computes. *)
Definition pi : float := Finite 884279719003555 (-48).

Definition math (libm_sin libm_cos : float → float) : Math arith := {|
  math_pi := Float pi : @num arith;
  math_sin (x : @num arith) := Float (libm_sin (to_float x)) : @num arith;
  math_cos (x : @num arith) := Float (libm_cos (to_float x)) : @num arith
|}.

End Binary64.

(** ** Specification vocabulary *)

Section Specification.
Context {A : Arith} {M : Math A}.
Import Polygon.

(** The formulas of the derived properties, as functions of the primitives:
    [(n - 2) * 180 / n], [2 * R * sin(π / n)], [R * cos(π / n)],
    [(n / 2) * sideLength * apothem] and [n * sideLength]. *)
Definition formula (d : derived) (n : Z) (R : num) : num :=
  let side := num_mul (num_mul (of_int 2) R)
                (math_sin (num_truediv math_pi (of_int n))) in
  let apo := num_mul R (math_cos (num_truediv math_pi (of_int n))) in
  match d with
  | InteriorAngle => num_truediv (of_int ((n - 2) * 180)) (of_int n)
  | SideLength => side
  | Apothem => apo
  | Area => num_mul (num_mul (num_truediv (of_int n) (of_int 2)) side) apo
  | Perimeter => num_mul (of_int n) side
  end.

(** No cached value is stale: what the dictionary holds under the name of a
    derived property is the formula at the current primitives. *)
Definition coherent (self : t) : Prop :=
  ∀ d v, __dict__ self !! attrname d = Some v → v = formula d (_n self) (_R self).

(** The instances a program can hold: built by [__init__], then used. *)
Inductive reachable : t → Prop :=
| reachable_init n R self : __init__ n R = Ok self → reachable self
| reachable_exec self c : reachable self → reachable (exec self c).

(** [missing d self] is the one computation of [d] still to come while its
    value is absent.  Reads never raise [calls d + missing d]. *)
Definition missing (d : derived) (self : t) : Z :=
  match __dict__ self !! attrname d with
  | Some _ => 0
  | None => 1
  end.

(** [area] reads [side_length] and [apothem]; [perimeter] reads
    [side_length].  A dictionary is [closed] when it holds, with a value,
    the values that value was computed from. *)
Definition depends (d d' : derived) : Prop :=
  (d = Area ∧ (d' = SideLength ∨ d' = Apothem))
  ∨ (d = Perimeter ∧ d' = SideLength).

Definition closed (self : t) : Prop :=
  ∀ d d', depends d d' →
    is_Some (__dict__ self !! attrname d) →
    is_Some (__dict__ self !! attrname d').

(** A mutation of a primitive that goes through. *)
Definition mutation (c : call) : Prop :=
  match c with
  | SetCountVertices new_n => 3 ≤ new_n
  | SetCircumradius _ => True
  | Read _ => False
  end.

(** The instance [__init__] builds: no call counted, nothing cached. *)
Definition fresh (n : Z) (R : num) : t := mk n R 0 0 0 0 0 ∅.

(** [>] orders the keys [ks] as numbers are ordered: it is irreflexive and
    transitive, and so is "not greater".  (A NaN among the keys breaks the
    last: it is not greater and not smaller than anything.) *)
Definition comparable (ks : list num) : Prop :=
  (∀ x, x ∈ ks → num_gt x x = false)
  ∧ (∀ x y z, x ∈ ks → y ∈ ks → z ∈ ks →
       num_gt x y = true → num_gt y z = true → num_gt x z = true)
  ∧ (∀ x y z, x ∈ ks → y ∈ ks → z ∈ ks →
       num_gt x y = false → num_gt y z = false → num_gt x z = false).

(** The efficiency of the polygon of [n] vertices and circumradius [R]. *)
Definition ratio (n : Z) (R : num) : num :=
  num_truediv (formula Area n R) (formula Perimeter n R).

(** The polygon of [n] vertices once [max] has taken its key: its area and
    its perimeter have been read. *)
Definition measured (n : Z) (R : num) : t :=
  (perimeter (area (fresh n R)).2).2.

(** [nstar] is the first, in ascending order, of the vertex counts 3..[m]
    whose ratio none exceeds. *)
Definition first_maximal (m : Z) (R : num) (nstar : Z) : Prop :=
  3 ≤ nstar ≤ m
  ∧ (∀ n, 3 ≤ n ≤ m → num_gt (ratio n R) (ratio nstar R) = false)
  ∧ (∀ n, 3 ≤ n < nstar → num_gt (ratio nstar R) (ratio n R) = true).

(** *** The counters, read off the history

    Reading [d'] computes [d] when [d] is not cached and [d'] is [d] or a
    property whose body reads [d]. *)
Definition touches (d' d : derived) : bool :=
  match d', d with
  | Area, SideLength | Area, Apothem | Perimeter, SideLength => true
  | _, _ => bool_decide (d' = d)
  end.

Definition cached (d : derived) (self : t) : bool :=
  bool_decide (is_Some (__dict__ self !! attrname d)).

(** One call seen from [d]: how many times [d] has been computed, and
    whether its value is held. *)
Definition tally_step (d : derived) (st : Z * bool) (c : call) : Z * bool :=
  match c with
  | SetCountVertices new_n => if new_n <? 3 then st else (st.1, false)
  | SetCircumradius _ => (st.1, false)
  | Read d' => if touches d' d && negb st.2 then (st.1 + 1, true) else st
  end.

Definition tally (d : derived) (cs : list call) : Z * bool :=
  foldl (tally_step d) (0, false) cs.

End Specification.

(** ** The cache *)

Section Cache.
Context {A : Arith} {M : Math A}.
Import Polygon.

Lemma attrname_inj d d' : attrname d = attrname d' → d = d'.
Proof. by destruct d, d'. Qed.

Lemma conditional_delete (dict : gmap string num) attr :
  (if bool_decide (is_Some (dict !! attr)) then delete attr dict else dict)
  = delete attr dict.
Proof.
  case_bool_decide as Hin; [done|].
  symmetry. apply delete_id. by apply eq_None_not_Some.
Qed.

Lemma _invalidate_cache_dict self :
  __dict__ (_invalidate_cache self)
  = delete "interior_angle" (delete "perimeter" (delete "area"
      (delete "apothem" (delete "side_length" (__dict__ self))))).
Proof.
  unfold _invalidate_cache, cached_attrs, set__dict__.
  cbn [foldl __dict__]. rewrite !conditional_delete. reflexivity.
Qed.

Lemma _invalidate_cache_clears self d :
  __dict__ (_invalidate_cache self) !! attrname d = None.
Proof.
  rewrite _invalidate_cache_dict.
  destruct d; simpl; by simplify_map_eq.
Qed.

(** Every getter is [cached_property] around a body that bumps one counter;
    [getter_cases] opens them and follows each lookup in the dictionary. *)
Ltac getter_cases :=
  unfold getter, area, perimeter, apothem, side_length, interior_angle,
    cached_property, set__dict__; simpl;
  repeat (case_match; simpl in *; simplify_map_eq).

Lemma getter_primitives d self :
  _n (getter d self).2 = _n self ∧ _R (getter d self).2 = _R self.
Proof. destruct d; getter_cases; done. Qed.

Lemma getter_cached d self v :
  __dict__ self !! attrname d = Some v → getter d self = (v, self).
Proof. destruct d; simpl; intros; getter_cases; done. Qed.

Lemma getter_stores d self :
  __dict__ (getter d self).2 !! attrname d = Some (getter d self).1.
Proof. destruct d; getter_cases; done. Qed.

Lemma getter_keeps d d' self v :
  __dict__ self !! attrname d' = Some v →
  __dict__ (getter d self).2 !! attrname d' = Some v.
Proof. destruct d, d'; simpl; intros; getter_cases; done. Qed.

Lemma getter_computes d self :
  __dict__ self !! attrname d = None →
  calls d (getter d self).2 = calls d self + 1.
Proof. destruct d; simpl; intros; getter_cases; done. Qed.

Lemma getter_calls d d' self :
  calls d' self ≤ calls d' (getter d self).2
  ∧ calls d' (getter d self).2 + missing d' (getter d self).2
    = calls d' self + missing d' self.
Proof. unfold missing. destruct d, d'; getter_cases; lia. Qed.

Lemma closed_cases self :
  closed self ↔
    (is_Some (__dict__ self !! "area") →
       is_Some (__dict__ self !! "side_length")
       ∧ is_Some (__dict__ self !! "apothem"))
    ∧ (is_Some (__dict__ self !! "perimeter") →
       is_Some (__dict__ self !! "side_length")).
Proof.
  split.
  - intros Hcl. split; intros Hd; [split|].
    + apply (Hcl Area SideLength); [left; auto|done].
    + apply (Hcl Area Apothem); [left; auto|done].
    + apply (Hcl Perimeter SideLength); [right; auto|done].
  - intros [Harea Hper] d d' [[-> [->| ->]]|[-> ->]]; simpl; intros Hd;
      [by apply Harea|by apply Harea|by apply Hper].
Qed.

Lemma getter_closed d self : closed self → closed (getter d self).2.
Proof.
  rewrite !closed_cases.
  destruct d; getter_cases; intuition (by eauto).
Qed.

Lemma getter_dependencies d d' self :
  closed self → depends d d' →
  is_Some (__dict__ (getter d self).2 !! attrname d').
Proof.
  intros Hcl Hdep. apply (getter_closed d self Hcl d d' Hdep).
  rewrite getter_stores. by eexists.
Qed.

(** What a coherent dictionary holds under each name. *)
Ltac use_coherent Hco :=
  repeat match goal with
  | H : __dict__ _ !! "interior_angle" = Some _ |- _ =>
      apply (Hco InteriorAngle) in H
  | H : __dict__ _ !! "side_length" = Some _ |- _ =>
      apply (Hco SideLength) in H
  | H : __dict__ _ !! "apothem" = Some _ |- _ =>
      apply (Hco Apothem) in H
  | H : __dict__ _ !! "area" = Some _ |- _ =>
      apply (Hco Area) in H
  | H : __dict__ _ !! "perimeter" = Some _ |- _ =>
      apply (Hco Perimeter) in H
  end; simpl in *; subst.

Lemma getter_coherent d self :
  coherent self →
  (getter d self).1 = formula d (_n self) (_R self)
  ∧ coherent (getter d self).2.
Proof.
  intros Hco. split.
  - destruct d; getter_cases; by use_coherent Hco.
  - intros d' v. destruct (getter_primitives d self) as [-> ->].
    destruct d, d'; getter_cases; intros; simplify_eq;
      by use_coherent Hco.
Qed.


(** *** Reads in a row *)


Lemma reads_cons self d ds :
  run self (Read <$> d :: ds) = run (getter d self).2 (Read <$> ds).
Proof. done. Qed.

Lemma reads_primitives self ds :
  _n (run self (Read <$> ds)) = _n self ∧ _R (run self (Read <$> ds)) = _R self.
Proof.
  revert self. induction ds as [|d ds IH]; intros self; [done|].
  rewrite reads_cons. destruct (IH (getter d self).2) as [-> ->].
  apply getter_primitives.
Qed.

Lemma reads_keep self ds d v :
  __dict__ self !! attrname d = Some v →
  __dict__ (run self (Read <$> ds)) !! attrname d = Some v.
Proof.
  revert self. induction ds as [|d' ds IH]; intros self Hv; [done|].
  rewrite reads_cons. apply IH. by apply getter_keeps.
Qed.



Lemma reads_cached self ds d :
  d ∈ ds → is_Some (__dict__ (run self (Read <$> ds)) !! attrname d).
Proof.
  revert self. induction ds as [|d0 ds IH]; intros self Hin.
  - by apply elem_of_nil in Hin.
  - rewrite reads_cons. apply elem_of_cons in Hin as [<-|Hin]; [|by apply IH].
    eexists. apply reads_keep, getter_stores.
Qed.




(** *** The setters *)

Lemma set_count_vertices_ok new_n self :
  3 ≤ new_n →
  ∃ self', set_count_vertices new_n self = (Ok (), self')
    ∧ _n self' = new_n ∧ _R self' = _R self
    ∧ (∀ d, calls d self' = calls d self)
    ∧ (∀ d, __dict__ self' !! attrname d = None).
Proof.
  intros Hn. unfold set_count_vertices.
  destruct (Z.ltb_spec new_n 3); [lia|].
  eexists; split; [done|]. repeat split; try by intros [].
  intros d. apply _invalidate_cache_clears.
Qed.

Lemma set_circumradius_ok new_R self :
  ∃ self', set_circumradius new_R self = (Ok (), self')
    ∧ _n self' = _n self ∧ _R self' = new_R
    ∧ (∀ d, calls d self' = calls d self)
    ∧ (∀ d, __dict__ self' !! attrname d = None).
Proof.
  eexists; split; [done|]. repeat split; try by intros [].
  intros d. apply _invalidate_cache_clears.
Qed.

Lemma mutation_clears self c :
  mutation c →
  (∀ d, calls d (exec self c) = calls d self)
  ∧ (∀ d, __dict__ (exec self c) !! attrname d = None).
Proof.
  destruct c as [new_n|new_R|d]; unfold mutation, exec; [intros Hn|intros _|done].
  - destruct (set_count_vertices_ok new_n self Hn) as (?&->&?&?&?&?). done.
  - destruct (set_circumradius_ok new_R self) as (?&->&?&?&?&?). done.
Qed.

Lemma absent_coherent self :
  (∀ d, __dict__ self !! attrname d = None) → coherent self.
Proof. intros Hnone d v. by rewrite Hnone. Qed.

Lemma exec_calls self c d : calls d self ≤ calls d (exec self c).
Proof.
  destruct c as [new_n|new_R|d']; simpl.
  - unfold set_count_vertices. case_match; simpl; [lia|]. by destruct d.
  - by destruct d.
  - apply getter_calls.
Qed.

Lemma exec_invariant self c :
  3 ≤ _n self → coherent self → 3 ≤ _n (exec self c) ∧ coherent (exec self c).
Proof.
  intros Hn Hco. destruct c as [new_n|new_R|d]; simpl.
  - unfold set_count_vertices. destruct (Z.ltb_spec new_n 3); simpl; [done|].
    split; [done|]. apply absent_coherent. intros d.
    apply _invalidate_cache_clears.
  - split; [done|]. apply absent_coherent. intros d.
    apply _invalidate_cache_clears.
  - destruct (getter_primitives d self) as [-> _].
    split; [done|]. by apply getter_coherent.
Qed.

Lemma reachable_invariant self :
  reachable self → 3 ≤ _n self ∧ coherent self ∧ ∀ d, 0 ≤ calls d self.
Proof.
  induction 1 as [n R self Hinit|self c _ (Hn & Hco & Hcalls)].
  - unfold __init__ in Hinit. destruct (Z.ltb_spec n 3); [done|].
    injection Hinit as <-. repeat split; [done|by intros d v|by intros []].
  - destruct (exec_invariant self c Hn Hco). repeat split; [done..|].
    intros d. pose proof (exec_calls self c d). specialize (Hcalls d). lia.
Qed.


Lemma reachable_run self cs : reachable self → reachable (run self cs).
Proof.
  revert self. induction cs as [|c cs IH]; intros self Hre; [done|].
  simpl. apply IH. by constructor.
Qed.

End Cache.

(** ** Iteration *)

Section Iteration.
Context {A : Arith} {M : Math A}.
Import PolygonIterator.

Lemma __init___fresh n R : 3 ≤ n → Polygon.__init__ n R = Ok (fresh n R).
Proof. intros Hn. unfold Polygon.__init__. by destruct (Z.ltb_spec n 3); [lia|]. Qed.

Lemma __next___yields m R index :
  3 ≤ index ≤ m →
  __next__ (mk m R index) = (Ok (fresh index R), mk m R (index + 1)).
Proof.
  intros Hi. unfold __next__; simpl.
  destruct (Z.gtb_spec index m); [lia|]. by rewrite __init___fresh by lia.
Qed.

Lemma __next___stops m R index :
  m < index → __next__ (mk m R index) = (Raise StopIteration, mk m R index).
Proof.
  intros Hi. unfold __next__; simpl. by destruct (Z.gtb_spec index m); [|lia].
Qed.

Lemma consume_unfold self :
  consume self =
  match __next__ self with
  | (Raise e, self') => ([], e, self')
  | (Ok polygon, self') =>
      let '(items, e, last) := consume self' in (polygon :: items, e, last)
  end.
Proof.
  funelim (consume self);
    match goal with H : __next__ _ = _ |- _ => by rewrite H end.
Qed.

Lemma max_loop_unfold key self maxitem maxval :
  max_loop key self maxitem maxval =
  match __next__ self with
  | (Raise StopIteration, _) => Ok maxitem
  | (Raise e, _) => Raise e
  | (Ok item, self') =>
      match key item with
      | (Raise e, _) => Raise e
      | (Ok val, item') =>
          if num_gt val maxval then max_loop key self' item' val
          else max_loop key self' maxitem maxval
      end
  end.
Proof.
  funelim (max_loop key self maxitem maxval);
    try match goal with H : __next__ _ = _ |- _ => rewrite H end;
    try match goal with H : key _ = _ |- _ => rewrite H end;
    done.
Qed.

(** From [index] on, a pass yields the polygons of [index], ..., [m]
    vertices and stops. *)
Lemma consume_from m R index :
  3 ≤ index ≤ m + 1 →
  consume (mk m R index)
  = ((λ n, fresh n R) <$> seqZ index (m + 1 - index),
     StopIteration, mk m R (m + 1)).
Proof.
  intros Hi. remember (Z.to_nat (m + 1 - index)) as k eqn:Hk.
  revert index Hi Hk. induction k as [|k IH]; intros index Hi Hk.
  - assert (index = m + 1) as -> by lia.
    rewrite consume_unfold, __next___stops by lia.
    by rewrite seqZ_nil by lia.
  - rewrite consume_unfold, __next___yields by lia.
    rewrite (IH (index + 1)) by lia.
    rewrite (seqZ_cons index) by lia.
    by replace (Z.pred (m + 1 - index)) with (m + 1 - (index + 1)) by lia.
Qed.

(** *** The key and the maximum *)

Lemma measured_primitives n R :
  Polygon._n (measured n R) = n ∧ Polygon._R (measured n R) = R.
Proof.
  unfold measured.
  change Polygon.perimeter with (Polygon.getter Polygon.Perimeter).
  change Polygon.area with (Polygon.getter Polygon.Area).
  by rewrite !(proj1 (getter_primitives _ _)), !(proj2 (getter_primitives _ _)).
Qed.

Lemma efficiency_fresh n R :
  Polygons.efficiency (fresh n R)
  = (py_truediv (formula Polygon.Area n R) (formula Polygon.Perimeter n R),
     measured n R).
Proof.
  unfold Polygons.efficiency, measured.
  assert (Hco : coherent (fresh n R)) by (by intros d v).
  destruct (getter_coherent Polygon.Area (fresh n R) Hco) as [Ha Hco1].
  destruct (getter_primitives Polygon.Area (fresh n R)) as [Hn HR].
  destruct (getter_coherent Polygon.Perimeter _ Hco1) as [Hp _].
  rewrite Hn, HR in Hp.
  change (Polygon.getter Polygon.Area) with Polygon.area in *.
  change (Polygon.getter Polygon.Perimeter) with Polygon.perimeter in *.
  destruct (Polygon.area (fresh n R)) as [a p1]; cbn [fst snd] in *.
  destruct (Polygon.perimeter p1) as [per p2]; cbn [fst snd] in *.
  by rewrite Ha, Hp.
Qed.

Lemma efficiency_ratio n R :
  is_zero (formula Polygon.Perimeter n R) = false →
  Polygons.efficiency (fresh n R) = (Ok (ratio n R), measured n R).
Proof. intros Hz. rewrite efficiency_fresh. unfold py_truediv. by rewrite Hz. Qed.

Lemma efficiency_zero n R :
  is_zero (formula Polygon.Perimeter n R) = true →
  Polygons.efficiency (fresh n R) = (Raise ZeroDivisionError, measured n R).
Proof. intros Hz. rewrite efficiency_fresh. unfold py_truediv. by rewrite Hz. Qed.

Lemma ratio_among m R n :
  3 ≤ n ≤ m → ratio n R ∈ (λ n, ratio n R) <$> seqZ 3 (m - 2).
Proof.
  intros Hn. apply list_elem_of_fmap. exists n. split; [done|].
  apply elem_of_seqZ. lia.
Qed.

(** The loop of [max], with [b] the maximum so far: [b] is first maximal
    among the vertex counts below [index], and the loop ends on one that is
    first maximal among them all. *)
Lemma max_loop_from m R index b :
  (∀ n, 3 ≤ n ≤ m → is_zero (formula Polygon.Perimeter n R) = false) →
  comparable ((λ n, ratio n R) <$> seqZ 3 (m - 2)) →
  3 ≤ index ≤ m + 1 →
  first_maximal (index - 1) R b →
  ∃ nstar, first_maximal m R nstar
    ∧ max_loop Polygons.efficiency (mk m R index) (measured b R) (ratio b R)
      = Ok (measured nstar R).
Proof.
  intros Hnz (Hirr & Htrans & Hneg) Hi.
  remember (Z.to_nat (m + 1 - index)) as k eqn:Hk.
  revert index b Hi Hk. induction k as [|k IH]; intros index b Hi Hk Hb.
  - assert (index = m + 1) as -> by lia.
    rewrite max_loop_unfold, __next___stops by lia.
    exists b. split; [|done]. by replace m with (m + 1 - 1) at 1 by lia.
  - rewrite max_loop_unfold, __next___yields by lia.
    rewrite efficiency_ratio by (apply Hnz; lia).
    destruct Hb as (Hbi & Hmax & Hfirst).
    assert (Hin : ∀ n, 3 ≤ n ≤ index → ratio n R ∈
                   (λ n, ratio n R) <$> seqZ 3 (m - 2))
      by (intros; apply ratio_among; lia).
    destruct (num_gt (ratio index R) (ratio b R)) eqn:Hgt.
    + apply (IH (index + 1) index); [lia..|].
      replace (index + 1 - 1) with index by lia.
      split_and!; [lia..| |].
      * intros n Hn. destruct (decide (n = index)) as [->|Hne].
        { apply Hirr, Hin; lia. }
        destruct (num_gt (ratio n R) (ratio index R)) eqn:Hn'; [|done].
        rewrite <-(Hmax n) by lia. symmetry.
        apply (Htrans _ (ratio index R)); auto; apply Hin; lia.
      * intros n Hn.
        destruct (num_gt (ratio index R) (ratio n R)) eqn:Hn'; [done|].
        rewrite <-Hgt. symmetry.
        apply (Hneg _ (ratio n R)); auto; try (apply Hin; lia).
        apply Hmax; lia.
    + apply (IH (index + 1) b); [lia..|].
      replace (index + 1 - 1) with index by lia.
      split_and!; [lia..| |done].
      intros n Hn. destruct (decide (n = index)) as [->|Hne]; [done|].
      apply Hmax; lia.
Qed.

Lemma max_efficiency_polygon_maximal m R :
  3 ≤ m →
  (∀ n, 3 ≤ n ≤ m → is_zero (formula Polygon.Perimeter n R) = false) →
  comparable ((λ n, ratio n R) <$> seqZ 3 (m - 2)) →
  ∃ nstar, first_maximal m R nstar
    ∧ Polygons.max_efficiency_polygon (Polygons.mk m R)
      = Ok (measured nstar R).
Proof.
  intros Hm Hnz Hcmp.
  unfold Polygons.max_efficiency_polygon, Polygons.__iter__, max, __init__; simpl.
  rewrite __next___yields, efficiency_ratio by (try apply Hnz; lia).
  apply max_loop_from; [done..|lia|].
  split_and!; [lia..| |lia].
  intros n Hn. assert (n = 3) as -> by lia.
  destruct Hcmp as (Hirr & _). apply Hirr, ratio_among. lia.
Qed.

(** A zero perimeter at the first polygon ends [max] at once. *)
Lemma max_efficiency_polygon_zero m R :
  3 ≤ m →
  is_zero (formula Polygon.Perimeter 3 R) = true →
  Polygons.max_efficiency_polygon (Polygons.mk m R) = Raise ZeroDivisionError.
Proof.
  intros Hm Hz.
  unfold Polygons.max_efficiency_polygon, Polygons.__iter__, max, __init__; simpl.
  by rewrite __next___yields, efficiency_zero by (done || lia).
Qed.

End Iteration.

(** ** Exact arithmetic *)

Section ExactArithmetic.
#[local] Existing Instances Exact.arith Exact.math.
Local Open Scope R_scope.

Lemma exact_gt (x y : R) : num_gt x y = true ↔ x > y.
Proof. simpl. by destruct (Rgt_dec x y). Qed.

Lemma exact_not_gt (x y : R) : num_gt x y = false ↔ x <= y.
Proof. simpl. destruct (Rgt_dec x y); split; try done; lra. Qed.

Lemma exact_is_zero (x : R) : is_zero x = true ↔ x = 0.
Proof. simpl. by destruct (Req_dec_T x 0). Qed.

Lemma exact_comparable (ks : list R) : comparable ks.
Proof.
  split_and!.
  - intros x _. apply exact_not_gt. lra.
  - intros x y z _ _ _. rewrite !exact_gt. lra.
  - intros x y z _ _ _. rewrite !exact_not_gt. lra.
Qed.

Lemma angle_range n : (3 ≤ n)%Z → 0 < PI / IZR n < PI.
Proof.
  intros Hn. apply IZR_le in Hn. pose proof PI_RGT_0.
  split.
  - apply Rdiv_lt_0_compat; lra.
  - assert (/ IZR n < / 1) by (apply Rinv_lt_contravar; lra).
    rewrite Rinv_1 in *. unfold Rdiv. nra.
Qed.

Lemma angle_decreasing n n' : (3 ≤ n < n')%Z → PI / IZR n' < PI / IZR n.
Proof.
  intros [Hn Hlt]. apply IZR_le in Hn. apply IZR_lt in Hlt.
  pose proof PI_RGT_0. unfold Rdiv.
  apply Rmult_lt_compat_l; [done|].
  apply Rinv_lt_contravar; [nra|done].
Qed.

Lemma exact_perimeter_nonzero n (R : num) :
  (3 ≤ n)%Z → R ≠ 0 → is_zero (formula Polygon.Perimeter n R) = false.
Proof.
  intros Hn HR. apply not_true_is_false. rewrite exact_is_zero. simpl.
  pose proof (angle_range n Hn) as [Hlo Hhi].
  pose proof (sin_gt_0 _ Hlo Hhi). apply IZR_le in Hn.
  intros Hz. apply Rmult_integral in Hz as [Hz|Hz]; [lra|].
  apply Rmult_integral in Hz as [Hz|Hz]; lra.
Qed.

Lemma exact_perimeter_zero n : is_zero (formula Polygon.Perimeter n 0) = true.
Proof. apply exact_is_zero. simpl. ring. Qed.

Lemma exact_ratio n (R : num) :
  (3 ≤ n)%Z → R ≠ 0 → ratio n R = R * cos (PI / IZR n) / 2.
Proof.
  intros Hn HR. unfold ratio; simpl.
  pose proof (angle_range n Hn) as [Hlo Hhi].
  pose proof (sin_gt_0 _ Hlo Hhi). apply IZR_le in Hn.
  field. repeat split; lra.
Qed.

Lemma exact_ratio_increasing n n' (R : num) :
  (3 ≤ n < n')%Z → 0 < R → ratio n R < ratio n' R.
Proof.
  intros Hn HR. rewrite !exact_ratio by (lia || lra).
  pose proof (angle_range n ltac:(lia)) as [? ?].
  pose proof (angle_range n' ltac:(lia)) as [? ?].
  pose proof (angle_decreasing n n' Hn).
  assert (cos (PI / IZR n) < cos (PI / IZR n'))
    by (apply cos_decreasing_1; lra).
  nra.
Qed.

(** In exact arithmetic and with a positive circumradius the ratio grows
    with the vertex count: the maximum is the last polygon. *)
Lemma exact_max_efficiency_polygon m (R : num) :
  (3 ≤ m)%Z → 0 < R →
  first_maximal m R m
  ∧ Polygons.max_efficiency_polygon (Polygons.mk m R) = Ok (measured m R).
Proof.
  intros Hm HR.
  destruct (max_efficiency_polygon_maximal (A:=Exact.arith) m R) as (nstar & Hfirst & Hmax).
  - done.
  - intros n Hn. apply exact_perimeter_nonzero; [lia|lra].
  - apply exact_comparable.
  - assert (nstar = m) as ->; [|done].
    destruct Hfirst as ([? ?] & Hnone & _).
    destruct (decide (nstar = m)) as [|Hne]; [done|].
    specialize (Hnone m ltac:(lia)). apply exact_not_gt in Hnone.
    pose proof (exact_ratio_increasing nstar m R ltac:(lia) HR). lra.
Qed.

Lemma exact_max_efficiency_polygon_zero m :
  (3 ≤ m)%Z →
  Polygons.max_efficiency_polygon (Polygons.mk m 0) = Raise ZeroDivisionError.
Proof.
  intros Hm. apply max_efficiency_polygon_zero; [done|].
  apply exact_perimeter_zero.
Qed.

End ExactArithmetic.

(** ** Binary64 arithmetic *)

Section Binary64Arithmetic.
#[local] Existing Instance Binary64.arith.
Import Binary64.









(** *** Past the largest [float]

    [2.0 ** 1023] is a [float]; twice it is not, and [2 * R] is infinite.
    Whatever the sine and the cosine are, the side, the perimeter and the
    area are then infinite or NaN, and their ratio is NaN. *)

Lemma fmul_unbounded_l x y : unbounded x → unbounded (fmul x y).
Proof.
  destruct x as [m e|s|], y as [m' e'|s'|]; simpl; try done.
  intros _. by destruct (m' =? 0).
Qed.

Lemma fmul_unbounded_r x y : unbounded y → unbounded (fmul x y).
Proof.
  destruct x as [m e|s|], y as [m' e'|s'|]; simpl; try done.
  intros _. by destruct (m =? 0).
Qed.

Lemma fdiv_unbounded x y : unbounded x → unbounded y → fdiv x y = NaN.
Proof. by destruct x as [m e|s|], y as [m' e'|s'|]. Qed.

Lemma unbounded_not_zero x : unbounded x → is_zero (Float x) = false.
Proof. by destruct x as [m e|[]|]. Qed.

Lemma twice_huge_unbounded :
  unbounded (fmul (to_float (num_mul (of_int 2) huge)) (Finite 1 0))
  ∧ to_float (num_mul (of_int 2) huge) = Infinity false.
Proof. by vm_compute. Qed.

Section Overflow.
Variables libm_sin libm_cos : float → float.
Let libm : Math arith := Binary64.math libm_sin libm_cos.

Lemma overflow_side n :
  ∃ x, formula (M:=libm) Polygon.SideLength n huge = Float x ∧ unbounded x.
Proof.
  eexists. split; [reflexivity|]. apply fmul_unbounded_l.
  by rewrite (proj2 twice_huge_unbounded).
Qed.

Lemma overflow_perimeter n :
  ∃ x, formula (M:=libm) Polygon.Perimeter n huge = Float x ∧ unbounded x.
Proof.
  eexists. split; [reflexivity|]. apply fmul_unbounded_r, fmul_unbounded_l.
  by rewrite (proj2 twice_huge_unbounded).
Qed.

Lemma overflow_area n :
  ∃ x, formula (M:=libm) Polygon.Area n huge = Float x ∧ unbounded x.
Proof.
  eexists. split; [reflexivity|].
  apply fmul_unbounded_l, fmul_unbounded_r, fmul_unbounded_l.
  by rewrite (proj2 twice_huge_unbounded).
Qed.

Lemma overflow_ratio n : ratio (M:=libm) n huge = Float NaN.
Proof.
  unfold ratio.
  destruct (overflow_area n) as (a & -> & Ha).
  destruct (overflow_perimeter n) as (p & -> & Hp).
  change (Float (fdiv a p) = Float NaN). by rewrite fdiv_unbounded.
Qed.

(** All the keys are NaN, none is greater than another, and [max] keeps
    the first item: the triangle, however long the sequence. *)
Lemma overflow_max_efficiency_polygon m :
  3 ≤ m →
  Polygons.max_efficiency_polygon (M:=libm) (Polygons.mk m huge)
  = Ok (measured (M:=libm) 3 huge).
Proof.
  intros Hm.
  destruct (max_efficiency_polygon_maximal (M:=libm) m huge)
    as (nstar & ([? ?] & _ & Hfirst) & ->); [done| | |].
  - intros n _. destruct (overflow_perimeter n) as (p & -> & Hp).
    by apply unbounded_not_zero.
  - split_and!.
    + intros x [n [-> _]]%list_elem_of_fmap. by rewrite overflow_ratio.
    + intros x y z [n [-> _]]%list_elem_of_fmap [n' [-> _]]%list_elem_of_fmap _.
      by rewrite !overflow_ratio.
    + intros x y z [n [-> _]]%list_elem_of_fmap _ [n' [-> _]]%list_elem_of_fmap _ _.
      by rewrite !overflow_ratio.
  - destruct (decide (nstar = 3)) as [->|Hne]; [done|].
    specialize (Hfirst 3 ltac:(lia)). by rewrite !overflow_ratio in Hfirst.
Qed.

End Overflow.

End Binary64Arithmetic.

(** ** The cache and its counters (C1, C2, C3, C10), the vertex count (C6)
    and the comparisons (C8, C9) *)

Section PolygonClaims.
Context {A : Arith} {M : Math A}.
Import Polygon.




(** C10.  With all five derived values in the dictionary, assigning to
    [circumradius] the value it has, or to [count_vertices] the value it has,
    still deletes all five; the next read of each derived property adds one
    to its counter. *)
Theorem invalidation_is_unconditional self :
  3 ≤ _n self →
  (∀ d, is_Some (__dict__ self !! attrname d)) →
  ∀ c, c = SetCircumradius (_R self) ∨ c = SetCountVertices (_n self) →
    _n (exec self c) = _n self ∧ _R (exec self c) = _R self
    ∧ ∀ d, __dict__ (exec self c) !! attrname d = None
         ∧ calls d (getter d self).2 = calls d self
         ∧ calls d (getter d (exec self c)).2 = calls d self + 1.
Proof.
  intros Hn Hall c Hc.
  assert (Hmut : mutation c) by (by destruct Hc as [-> | ->]).
  destruct (mutation_clears self c Hmut) as [Hcalls Hnone].
  split_and!.
  - destruct Hc as [-> | ->]; unfold exec.
    + by destruct (set_circumradius_ok (_R self) self) as (?&->&?&?&_).
    + by destruct (set_count_vertices_ok (_n self) self Hn) as (?&->&?&?&_).
  - destruct Hc as [-> | ->]; unfold exec.
    + by destruct (set_circumradius_ok (_R self) self) as (?&->&?&?&_).
    + by destruct (set_count_vertices_ok (_n self) self Hn) as (?&->&?&?&_).
  - intros d. split_and!; [done| |].
    + destruct (Hall d) as [v Hv]. by rewrite (getter_cached d self v).
    + rewrite getter_computes; [|done]. by rewrite Hcalls.
Qed.

(** C6.  [__init__] and the setter of [count_vertices] raise [ValueError]
    exactly when the vertex count is below 3, and go through otherwise; a
    setter that raises returns the instance as it was. *)
Theorem vertex_count_below_three_is_rejected n R self :
  (__init__ n R = Raise ValueError ↔ n < 3)
  ∧ (3 ≤ n ↔ ∃ p, __init__ n R = Ok p)
  ∧ ((set_count_vertices n self).1 = Raise ValueError ↔ n < 3)
  ∧ (3 ≤ n ↔ (set_count_vertices n self).1 = Ok ())
  ∧ (n < 3 → (set_count_vertices n self).2 = self).
Proof.
  unfold __init__, set_count_vertices.
  destruct (Z.ltb_spec n 3); simpl; split_and!; try done; try lia;
    split; try done; try lia; try (by intros [? ?]); by eexists.
Qed.

(** C8.  Two polygons are equal exactly when their vertex counts are equal
    and their circumradii are [==]; one is greater than the other exactly
    when its vertex count is greater.  Both answers are booleans, and
    neither depends on anything but the primitives (the order, not even on
    the circumradius). *)
Theorem comparison_by_primitives p q :
  (__eq__ p (PolygonObject q) = Bool true
     ↔ _n p = _n q ∧ num_eq (_R p) (_R q) = true)
  ∧ (__eq__ p (PolygonObject q) = Bool false
     ↔ ¬ (_n p = _n q ∧ num_eq (_R p) (_R q) = true))
  ∧ (__gt__ p (PolygonObject q) = Bool true ↔ _n p > _n q)
  ∧ (__gt__ p (PolygonObject q) = Bool false ↔ ¬ _n p > _n q)
  ∧ (∀ p' q', _n p' = _n p → _R p' = _R p → _n q' = _n q → _R q' = _R q →
       __eq__ p' (PolygonObject q') = __eq__ p (PolygonObject q))
  ∧ (∀ p' q', _n p' = _n p → _n q' = _n q →
       __gt__ p' (PolygonObject q') = __gt__ p (PolygonObject q)).
Proof.
  unfold __eq__, __gt__, count_edges, count_vertices, circumradius; simpl.
  split_and!.
  - destruct (Z.eqb_spec (_n p) (_n q)), (num_eq (_R p) (_R q)); simpl;
      split; try done; try (by intros [? ?]).
  - destruct (Z.eqb_spec (_n p) (_n q)), (num_eq (_R p) (_R q)); simpl;
      split; try done; try (intros Hnot; by destruct Hnot);
      by intros _ [? ?].
  - destruct (Z.gtb_spec (_n p) (_n q)); split; try done; lia.
  - destruct (Z.gtb_spec (_n p) (_n q)); split; try done; lia.
  - by intros p' q' -> -> -> ->.
  - by intros p' q' -> ->.
Qed.

(** C9.  Against an operand that is not a polygon, [__eq__] and [__gt__]
    both answer [NotImplemented], never a boolean. *)
Theorem comparison_with_other_types_not_implemented self other :
  (∀ p, other ≠ PolygonObject p) →
  __eq__ self other = NotImplemented
  ∧ __gt__ self other = NotImplemented
  ∧ ∀ b, __eq__ self other ≠ Bool b ∧ __gt__ self other ≠ Bool b.
Proof.
  intros Hother. unfold __eq__, __gt__.
  destruct other as [p| | |]; simpl; [by destruct (Hother p)|done..].
Qed.

End PolygonClaims.

(** ** The sequence (C7), its maximum (C4) and the formulas (C5) *)

Section PolygonsClaims.
Context {A : Arith} {M : Math A}.

(** C7.  A sequence built with [m] of at least 3 has length [m - 2].  A
    pass over a new iterator starts at 3 and yields the [m - 2] polygons of
    3, 4, ..., [m] vertices and circumradius [R], each as [__init__] builds
    it, then stops; the exhausted iterator stays exhausted, while [__iter__]
    hands out a new cursor at 3 each time, for the same pass again. *)
Theorem iteration_yields_every_polygon_afresh m R self :
  Polygons.__init__ m R = Ok self →
  Polygons.__len__ self = m - 2
  ∧ Polygons.__iter__ self = PolygonIterator.mk m R 3
  ∧ ∃ items last,
      PolygonIterator.consume (Polygons.__iter__ self)
        = (items, StopIteration, last)
      ∧ items = (λ n, fresh n R) <$> seqZ 3 (m - 2)
      ∧ Forall (λ p, Polygon.__init__ (Polygon._n p) R = Ok p) items
      ∧ Z.of_nat (length items) = m - 2
      ∧ PolygonIterator.consume last = ([], StopIteration, last).
Proof.
  unfold Polygons.__init__. destruct (Z.ltb_spec m 3) as [|Hm]; [done|].
  intros [= <-]. split_and!; [done..|].
  unfold Polygons.__iter__, PolygonIterator.__init__; simpl.
  eexists _, _. split_and!.
  - rewrite consume_from by lia. by replace (m + 1 - 3) with (m - 2) by lia.
  - done.
  - apply Forall_fmap, Forall_seqZ. intros n Hn; simpl.
    apply __init___fresh. lia.
  - rewrite length_fmap, length_seqZ. lia.
  - rewrite consume_unfold. by rewrite __next___stops by lia.
Qed.

End PolygonsClaims.

(** C4.  When no polygon of the sequence has a zero perimeter and [>]
    orders their ratios, [max_efficiency_polygon] returns the polygon of
    the first vertex count, in ascending order, whose area/perimeter ratio
    none exceeds.  In exact arithmetic and for a positive circumradius, that
    is the polygon of [m] vertices. *)
Theorem max_efficiency_polygon_is_first_maximal :
  (∀ (A : Arith) (M : Math A) m R self,
     Polygons.__init__ m R = Ok self →
     (∀ n, 3 ≤ n ≤ m → is_zero (formula Polygon.Perimeter n R) = false) →
     comparable ((λ n, ratio n R) <$> seqZ 3 (m - 2)) →
     ∃ nstar p,
       first_maximal m R nstar
       ∧ Polygons.max_efficiency_polygon self = Ok p
       ∧ Polygon._n p = nstar ∧ Polygon._R p = R)
  ∧ (∀ m (R : @num Exact.arith) self,
       Polygons.__init__ m R = Ok self →
       (0 < R)%R →
       ∃ p,
         first_maximal (M:=Exact.math) m R m
         ∧ Polygons.max_efficiency_polygon (M:=Exact.math) self = Ok p
         ∧ Polygon._n p = m ∧ Polygon._R p = R).
Proof.
  split.
  - intros A M m R self Hinit Hnz Hcmp.
    unfold Polygons.__init__ in Hinit.
    destruct (Z.ltb_spec m 3) as [|Hm]; [done|]. injection Hinit as <-.
    destruct (max_efficiency_polygon_maximal m R Hm Hnz Hcmp)
      as (nstar & Hfirst & Hmax).
    exists nstar, (measured nstar R).
    destruct (measured_primitives nstar R) as [Hn HR].
    split; [exact Hfirst|]. split; [exact Hmax|]. split; [exact Hn|exact HR].
  - intros m R self Hinit HR.
    unfold Polygons.__init__ in Hinit.
    destruct (Z.ltb_spec m 3) as [|Hm]; [done|]. injection Hinit as <-.
    destruct (exact_max_efficiency_polygon m R Hm HR) as [Hfirst Hmax].
    exists (measured (M:=Exact.math) m R).
    destruct (measured_primitives (M:=Exact.math) m R) as [Hn HR'].
    split; [exact Hfirst|]. split; [exact Hmax|]. split; [exact Hn|exact HR'].
Qed.


(** ** Concrete inputs

    Small polygons of circumradius 1 in exact arithmetic, and the inputs at
    which binary64 and a zero circumradius part from the specification. *)

Section ExactInputs.
#[local] Existing Instances Exact.arith Exact.math.




Lemma invalidation_is_unconditional_witness :
  let self := Polygon.run (M:=Exact.math) (fresh 3 (of_int 1))
                (Polygon.Read <$> [Polygon.InteriorAngle; Polygon.SideLength;
                                   Polygon.Apothem; Polygon.Area;
                                   Polygon.Perimeter]) in
  3 ≤ Polygon._n self
  ∧ (∀ d, is_Some (Polygon.__dict__ self !! Polygon.attrname d))
  ∧ Polygon.__dict__
      (Polygon.exec self (Polygon.SetCircumradius (Polygon._R self)))
      !! "area" = None.
Proof.
  intros self.
  assert (Hn : 3 ≤ Polygon._n self)
    by (unfold self; rewrite (proj1 (reads_primitives _ _)); simpl; lia).
  assert (Hall : ∀ d, is_Some (Polygon.__dict__ self !! Polygon.attrname d)).
  { intros d. apply reads_cached.
    destruct d;
      repeat first [apply list_elem_of_here|apply list_elem_of_further]. }
  split_and!; [done..|].
  destruct (invalidation_is_unconditional (M:=Exact.math) self Hn Hall
              (Polygon.SetCircumradius (Polygon._R self)) (or_introl eq_refl))
    as (_ & _ & Hd).
  exact (proj1 (Hd Polygon.Area)).
Defined.

Lemma comparison_with_other_types_not_implemented_witness :
  (∀ p, Polygon.NoneObject ≠ Polygon.PolygonObject (A:=Exact.arith) p)
  ∧ Polygon.__eq__ (fresh 3 (of_int 1)) Polygon.NoneObject = Polygon.NotImplemented
  ∧ Polygon.__gt__ (fresh (A:=Exact.arith) 3 (of_int 1)) Polygon.NoneObject
    = Polygon.NotImplemented.
Proof.
  assert (Hother : ∀ p, Polygon.NoneObject
                        ≠ Polygon.PolygonObject (A:=Exact.arith) p)
    by done.
  split; [done|].
  destruct (comparison_with_other_types_not_implemented
              (fresh 3 (of_int 1)) Polygon.NoneObject Hother) as (Heq & Hgt & _).
  by split.
Defined.

Lemma iteration_yields_every_polygon_afresh_witness :
  Polygons.__init__ (A:=Exact.arith) 5 (of_int 1) = Ok (Polygons.mk 5 (of_int 1))
  ∧ Polygons.__len__ (A:=Exact.arith) (Polygons.mk 5 (of_int 1)) = 3.
Proof.
  split; [done|].
  exact (proj1 (iteration_yields_every_polygon_afresh
                  5 (of_int 1) (Polygons.mk 5 (of_int 1)) eq_refl)).
Defined.

Lemma max_efficiency_polygon_is_first_maximal_witness :
  Polygons.__init__ (A:=Exact.arith) 5 (of_int 1) = Ok (Polygons.mk 5 (of_int 1))
  ∧ (0 < @of_int Exact.arith 1%Z)%R
  ∧ (∃ p, Polygons.max_efficiency_polygon (M:=Exact.math) (Polygons.mk 5 (of_int 1))
          = Ok p ∧ Polygon._n p = 5)
  ∧ (∃ nstar p, first_maximal (M:=Exact.math) 5 (of_int 1) nstar
       ∧ Polygons.max_efficiency_polygon (M:=Exact.math) (Polygons.mk 5 (of_int 1))
         = Ok p ∧ Polygon._n p = nstar).
Proof.
  assert (Hpos : (0 < @of_int Exact.arith 1%Z)%R) by (simpl; lra).
  split_and!; [done..| |].
  - destruct (proj2 max_efficiency_polygon_is_first_maximal
                5 (of_int 1) (Polygons.mk 5 (of_int 1)) eq_refl Hpos) as (p & _ & Hmax & Hn & _).
    exists p. split; [exact Hmax|exact Hn].
  - destruct (proj1 max_efficiency_polygon_is_first_maximal
                Exact.arith Exact.math 5 (of_int 1) (Polygons.mk 5 (of_int 1)) eq_refl)
      as (nstar & p & Hfirst & Hmax & Hn & _).
    + intros n Hn. apply exact_perimeter_nonzero; [lia|simpl; lra].
    + apply exact_comparable.
    + exists nstar, p. split; [exact Hfirst|]. split; [exact Hmax|exact Hn].
Defined.

End ExactInputs.



(** Where C4 fails as stated: with a circumradius of 0 every perimeter is 0
    and the ratio of the first polygon raises [ZeroDivisionError]; with the
    positive circumradius [2.0 ** 1023] the ratios are NaN and the polygon
    returned is the triangle, not the one of [m] vertices. *)
Lemma max_efficiency_polygon_raises_or_returns_first :
  (Polygons.__init__ (A:=Exact.arith) 3 (of_int 0) = Ok (Polygons.mk 3 (of_int 0))
   ∧ Polygons.max_efficiency_polygon (M:=Exact.math) (Polygons.mk 3 (of_int 0))
     = Raise ZeroDivisionError)
  ∧ (∀ libm_sin libm_cos,
       Polygons.__init__ 4 Binary64.huge = Ok (Polygons.mk 4 Binary64.huge)
       ∧ num_gt Binary64.huge (of_int 0) = true
       ∧ ∃ p, Polygons.max_efficiency_polygon
                (M:=Binary64.math libm_sin libm_cos) (Polygons.mk 4 Binary64.huge)
              = Ok p
            ∧ Polygon._n p = 3).
Proof.
  split.
  - split; [reflexivity|]. apply exact_max_efficiency_polygon_zero. lia.
  - intros libm_sin libm_cos.
    split; [reflexivity|]. split; [by vm_compute|].
    eexists. split; [apply overflow_max_efficiency_polygon; lia|].
    apply measured_primitives.
Qed.

(** ** Further properties of the two classes *)

Section Lifetime.
Context {A : Arith} {M : Math A}.
Import Polygon.

Ltac getter_cases :=
  unfold getter, area, perimeter, apothem, side_length, interior_angle,
    cached_property, set__dict__; simpl;
  repeat (case_match; simpl in *; simplify_map_eq).

Lemma exec_closed self c : closed self → closed (exec self c).
Proof.
  intros Hcl. destruct c as [new_n|new_R|d]; unfold exec.
  - unfold set_count_vertices. case_match; [done|]. cbn [snd].
    intros d d' _ [v Hv]. by rewrite _invalidate_cache_clears in Hv.
  - unfold set_circumradius. cbn [snd].
    intros d d' _ [v Hv]. by rewrite _invalidate_cache_clears in Hv.
  - by apply getter_closed.
Qed.


(** One read, seen from [d], on a closed dictionary. *)
Lemma getter_tally d' d self :
  closed self →
  (calls d (getter d' self).2, cached d (getter d' self).2)
  = tally_step d (calls d self, cached d self) (Read d').
Proof.
  rewrite closed_cases. unfold tally_step, cached.
  destruct d', d; getter_cases; intros [Harea Hper];
    repeat case_bool_decide; simpl; try done;
    repeat match goal with
    | H : ¬ is_Some (Some _) |- _ => by destruct H
    | H : is_Some None |- _ => by apply is_Some_None in H
    | H : is_Some (Some _) → _ |- _ => specialize (H (mk_is_Some _ _ eq_refl))
    | H : _ ∧ _ |- _ => destruct H
    | H : ?x = None, H' : is_Some ?x |- _ =>
        rewrite H in H'; by apply is_Some_None in H'
    end; done.
Qed.

Lemma exec_tally d self c :
  closed self →
  (calls d (exec self c), cached d (exec self c))
  = tally_step d (calls d self, cached d self) c.
Proof.
  intros Hcl. destruct c as [new_n|new_R|d']; [| |by apply getter_tally].
  - unfold exec, tally_step, set_count_vertices.
    destruct (new_n <? 3); [done|]. cbn [fst snd]. f_equal; try by destruct d.
    unfold cached. by rewrite _invalidate_cache_clears, bool_decide_eq_false_2
      by apply is_Some_None.
  - unfold exec, tally_step, set_circumradius.
    cbn [fst snd]. f_equal; try by destruct d.
    unfold cached. by rewrite _invalidate_cache_clears, bool_decide_eq_false_2
      by apply is_Some_None.
Qed.

Lemma run_tally d self cs :
  closed self →
  (calls d (run self cs), cached d (run self cs))
  = foldl (tally_step d) (calls d self, cached d self) cs.
Proof.
  revert self. induction cs as [|c cs IH]; intros self Hcl; [done|].
  change (run self (c :: cs)) with (run (exec self c) cs).
  rewrite IH by (by apply exec_closed). simpl. by rewrite exec_tally.
Qed.





End Lifetime.

Section Dictionary.
Context {A : Arith} {M : Math A}.
Import Polygon.

Ltac getter_cases :=
  unfold getter, area, perimeter, apothem, side_length, interior_angle,
    cached_property, set__dict__; simpl;
  repeat (case_match; simpl in *; simplify_map_eq).

Lemma attrname_cached d : attrname d ∈ cached_attrs.
Proof.
  destruct d; unfold cached_attrs; simpl;
    repeat first [apply list_elem_of_here|apply list_elem_of_further].
Qed.

Lemma _invalidate_cache_dict' self :
  foldl (λ d attr, if bool_decide (is_Some (d !! attr)) then delete attr d else d)
    (__dict__ self) cached_attrs
  = delete "interior_angle" (delete "perimeter" (delete "area"
      (delete "apothem" (delete "side_length" (__dict__ self))))).
Proof. apply (_invalidate_cache_dict self). Qed.

Lemma not_cached_attr attr :
  attr ∉ cached_attrs → ∀ d, attrname d ≠ attr.
Proof. intros Hnot d <-. apply Hnot, attrname_cached. Qed.

Lemma _invalidate_cache_mk n R c1 c2 c3 c4 c5 dict :
  _invalidate_cache (mk n R c1 c2 c3 c4 c5 dict)
  = mk n R c1 c2 c3 c4 c5
      (delete "interior_angle" (delete "perimeter" (delete "area"
         (delete "apothem" (delete "side_length" dict))))).
Proof.
  unfold _invalidate_cache, set__dict__. cbn [_n _R _interior_angle_calls
    _side_length_calls _apothem_calls _area_calls _perimeter_calls].
  f_equal. apply (_invalidate_cache_dict' (mk n R c1 c2 c3 c4 c5 dict)).
Qed.

Lemma delete_cached_twice (dict : gmap string num) :
  let inv := λ dict : gmap string num,
    delete "interior_angle" (delete "perimeter" (delete "area"
      (delete "apothem" (delete "side_length" dict)))) in
  inv (inv dict) = inv dict.
Proof.
  intros inv. apply map_eq. intros attr. unfold inv.
  destruct (decide (attr = "interior_angle")) as [->|?]; [by simplify_map_eq|].
  destruct (decide (attr = "perimeter")) as [->|?]; [by simplify_map_eq|].
  destruct (decide (attr = "area")) as [->|?]; [by simplify_map_eq|].
  destruct (decide (attr = "apothem")) as [->|?]; [by simplify_map_eq|].
  destruct (decide (attr = "side_length")) as [->|?]; [by simplify_map_eq|].
  by rewrite !lookup_delete_ne.
Qed.

(** X5.  [_invalidate_cache] deletes the five names and nothing else: an
    entry under any other name stays, the primitives and the counters stay,
    and invalidating twice is invalidating once. *)
Theorem _invalidate_cache_frame self :
  (∀ attr, attr ∉ cached_attrs →
     __dict__ (_invalidate_cache self) !! attr = __dict__ self !! attr)
  ∧ (∀ attr, attr ∈ cached_attrs →
     __dict__ (_invalidate_cache self) !! attr = None)
  ∧ _n (_invalidate_cache self) = _n self
  ∧ _R (_invalidate_cache self) = _R self
  ∧ (∀ d, calls d (_invalidate_cache self) = calls d self)
  ∧ _invalidate_cache (_invalidate_cache self) = _invalidate_cache self.
Proof.
  set (inv := λ dict : gmap string num,
         delete "interior_angle" (delete "perimeter" (delete "area"
           (delete "apothem" (delete "side_length" dict))))).
  assert (Hin : ∀ dict attr, attr ∈ cached_attrs → inv dict !! attr = None).
  { intros dict attr Hattr. unfold cached_attrs in Hattr. unfold inv.
    repeat (apply elem_of_cons in Hattr as [->|Hattr]; [by simplify_map_eq|]).
    by apply elem_of_nil in Hattr. }
  assert (Hout : ∀ dict attr, attr ∉ cached_attrs →
            inv dict !! attr = dict !! attr).
  { intros dict attr Hattr. unfold inv.
    pose proof (not_cached_attr attr Hattr) as Hne.
    pose proof (Hne InteriorAngle). pose proof (Hne SideLength).
    pose proof (Hne Apothem). pose proof (Hne Area). pose proof (Hne Perimeter).
    simpl in *. by rewrite !lookup_delete_ne. }
  assert (Heq : ∀ self, _invalidate_cache self
                        = set__dict__ (inv (__dict__ self)) self).
  { intros self'. unfold _invalidate_cache. f_equal.
    apply _invalidate_cache_dict'. }
  rewrite !Heq.
  split_and!; [by apply Hout|by apply Hin|done|done|by intros []|].
  unfold set__dict__; simpl. f_equal. apply map_eq. intros attr.
  destruct (decide (attr ∈ cached_attrs)) as [Hattr|Hattr].
  - by rewrite !Hin.
  - by rewrite !Hout.
Qed.

(** X4.  Mutations that go through compose as assignments do: of two
    assignments to the same primitive only the second shows, and
    assignments to the two primitives can be swapped; the instance that
    results is the same, dictionary and counters included. *)
Theorem mutations_compose self new_n new_n' new_R new_R' :
  3 ≤ new_n → 3 ≤ new_n' →
  exec (exec self (SetCountVertices new_n)) (SetCountVertices new_n')
    = exec self (SetCountVertices new_n')
  ∧ exec (exec self (SetCircumradius new_R)) (SetCircumradius new_R')
    = exec self (SetCircumradius new_R')
  ∧ exec (exec self (SetCountVertices new_n)) (SetCircumradius new_R)
    = exec (exec self (SetCircumradius new_R)) (SetCountVertices new_n).
Proof.
  intros Hn Hn'. unfold exec, set_count_vertices, set_circumradius.
  destruct (Z.ltb_spec new_n 3); [lia|]. destruct (Z.ltb_spec new_n' 3); [lia|].
  cbn [snd]. rewrite !_invalidate_cache_mk.
  cbn [_n _R _interior_angle_calls _side_length_calls _apothem_calls
       _area_calls _perimeter_calls __dict__].
  rewrite ?_invalidate_cache_mk.
  split_and!; f_equal; apply delete_cached_twice.
Qed.




Lemma reads_coherent self ds :
  coherent self → coherent (run self (Read <$> ds)).
Proof.
  revert self. induction ds as [|d ds IH]; intros self Hco; [done|].
  rewrite reads_cons. by apply IH, getter_coherent.
Qed.

(** X6.  Reads do not show in what later reads return: after any reads of
    derived properties the primitives are as before and each getter returns
    what it would have returned at once. *)
Theorem reads_are_transparent self ds d :
  reachable self →
  _n (run self (Read <$> ds)) = _n self
  ∧ _R (run self (Read <$> ds)) = _R self
  ∧ (getter d (run self (Read <$> ds))).1 = (getter d self).1.
Proof.
  intros Hre. destruct (reachable_invariant self Hre) as (_ & Hco & _).
  destruct (reads_primitives self ds) as [Hn HR].
  split_and!; [done..|].
  rewrite (proj1 (getter_coherent d _ (reads_coherent self ds Hco))).
  rewrite (proj1 (getter_coherent d self Hco)). by rewrite Hn, HR.
Qed.

End Dictionary.

Section Sequence.
Context {A : Arith} {M : Math A}.

(** X9.  A pass over an iterator whose cursor is at [index] yields the
    polygons of [index], ..., [m] vertices, none when [index] is past [m],
    and leaves the cursor past [m]; an iterator built for [m] below 3 yields
    nothing. *)
Theorem pass_from_any_cursor m R index :
  3 ≤ index →
  PolygonIterator.consume (PolygonIterator.mk m R index)
  = ((λ n, fresh n R) <$> seqZ index (m + 1 - index),
     StopIteration, PolygonIterator.mk m R (Z.max index (m + 1)))
  ∧ (m < 3 →
     PolygonIterator.consume (PolygonIterator.__init__ m R)
     = ([], StopIteration, PolygonIterator.__init__ m R)).
Proof.
  intros Hi. split.
  - destruct (decide (index ≤ m + 1)) as [Hle|Hgt].
    + rewrite consume_from by lia. by rewrite Z.max_r by lia.
    + rewrite consume_unfold, __next___stops by lia.
      by rewrite seqZ_nil, Z.max_l by lia.
  - intros Hm. unfold PolygonIterator.__init__.
    by rewrite consume_unfold, __next___stops by lia.
Qed.

(** The loop of [max] while no perimeter is zero: it ends on the maximum it
    was given or on one of the polygons still to come. *)
Lemma max_loop_member m R index maxitem maxval :
  3 ≤ index ≤ m + 1 →
  (∀ n, index ≤ n ≤ m → is_zero (formula Polygon.Perimeter n R) = false) →
  PolygonIterator.max_loop Polygons.efficiency (PolygonIterator.mk m R index)
    maxitem maxval = Ok maxitem
  ∨ ∃ n, index ≤ n ≤ m
      ∧ PolygonIterator.max_loop Polygons.efficiency
          (PolygonIterator.mk m R index) maxitem maxval
        = Ok (measured n R).
Proof.
  intros Hi. remember (Z.to_nat (m + 1 - index)) as k eqn:Hk.
  revert index maxitem maxval Hi Hk.
  induction k as [|k IH]; intros index maxitem maxval Hi Hk Hnz.
  - left. by rewrite max_loop_unfold, __next___stops by lia.
  - rewrite max_loop_unfold, __next___yields by lia.
    rewrite efficiency_ratio by (apply Hnz; lia).
    destruct (num_gt (ratio index R) maxval).
    + right.
      destruct (IH (index + 1) (measured index R) (ratio index R))
        as [->|(n & Hn & ->)]; [lia|lia|intros; apply Hnz; lia|..].
      * exists index. split; [lia|done].
      * exists n. split; [lia|done].
    + destruct (IH (index + 1) maxitem maxval)
        as [->|(n & Hn & ->)]; [lia|lia|intros; apply Hnz; lia|..].
      * by left.
      * right. exists n. split; [lia|done].
Qed.

(** The loop of [max] when a perimeter still to come is zero. *)
Lemma max_loop_raises m R index n0 maxitem maxval :
  3 ≤ index ≤ n0 → n0 ≤ m →
  is_zero (formula Polygon.Perimeter n0 R) = true →
  PolygonIterator.max_loop Polygons.efficiency (PolygonIterator.mk m R index)
    maxitem maxval = Raise ZeroDivisionError.
Proof.
  intros Hi Hm Hz. remember (Z.to_nat (n0 - index)) as k eqn:Hk.
  revert index maxitem maxval Hi Hk.
  induction k as [|k IH]; intros index maxitem maxval Hi Hk;
    rewrite max_loop_unfold, __next___yields by lia.
  - assert (index = n0) as -> by lia. by rewrite efficiency_zero.
  - destruct (is_zero (formula Polygon.Perimeter index R)) eqn:Hzi.
    + by rewrite efficiency_zero.
    + rewrite efficiency_ratio by done.
      destruct (num_gt (ratio index R) maxval); apply IH; lia.
Qed.

Lemma max_efficiency_polygon_cases m R :
  3 ≤ m →
  ((∃ n, 3 ≤ n ≤ m ∧ is_zero (formula Polygon.Perimeter n R) = true)
   ∧ Polygons.max_efficiency_polygon (Polygons.mk m R) = Raise ZeroDivisionError)
  ∨ ((∀ n, 3 ≤ n ≤ m → is_zero (formula Polygon.Perimeter n R) = false)
     ∧ ∃ n, 3 ≤ n ≤ m
         ∧ Polygons.max_efficiency_polygon (Polygons.mk m R)
           = Ok (measured n R)).
Proof.
  intros Hm.
  unfold Polygons.max_efficiency_polygon, Polygons.__iter__,
    PolygonIterator.max, PolygonIterator.__init__; simpl.
  rewrite __next___yields by lia.
  destruct (decide (Exists (λ n, is_zero (formula Polygon.Perimeter n R) = true)
                      (seqZ 3 (m - 2)))) as [Hex|Hall].
  - left. apply Exists_exists in Hex as (n0 & Hn0%elem_of_seqZ & Hz).
    split; [exists n0; split; [lia|done]|].
    destruct (is_zero (formula Polygon.Perimeter 3 R)) eqn:Hz3.
    + by rewrite efficiency_zero.
    + rewrite efficiency_ratio by done.
      assert (n0 ≠ 3) by congruence.
      apply (max_loop_raises m R (3 + 1) n0); [lia|lia|done].
  - right.
    assert (Hnz : ∀ n, 3 ≤ n ≤ m →
              is_zero (formula Polygon.Perimeter n R) = false).
    { intros n Hn. apply not_true_is_false. intros Hz. apply Hall.
      apply Exists_exists. exists n. split; [|done]. apply elem_of_seqZ. lia. }
    split; [done|]. rewrite efficiency_ratio by (apply Hnz; lia).
    destruct (max_loop_member m R (3 + 1) (measured 3 R) (ratio 3 R))
      as [->|(n & Hn & ->)]; [lia|intros; apply Hnz; lia|..].
    + exists 3. split; [lia|done].
    + exists n. split; [lia|done].
Qed.


Lemma measured_history n R :
  measured n R
  = Polygon.run (fresh n R) [Polygon.Read Polygon.Area; Polygon.Read Polygon.Perimeter].
Proof. done. Qed.

Lemma measured_tally n R d :
  (Polygon.calls d (measured n R), cached d (measured n R))
  = tally d [Polygon.Read Polygon.Area; Polygon.Read Polygon.Perimeter].
Proof.
  rewrite measured_history, run_tally.
  - assert (Hstart : (Polygon.calls d (fresh n R), cached d (fresh n R))
                     = (0, false)).
    { unfold cached, fresh. cbn [Polygon.__dict__]. rewrite lookup_empty.
      rewrite bool_decide_eq_false_2 by apply is_Some_None. by destruct d. }
    by rewrite Hstart.
  - intros d1 d2 _ [v Hv]. simpl in Hv. by rewrite lookup_empty in Hv.
Qed.

(** X8.  The polygon [max_efficiency_polygon] returns has been measured:
    its area, perimeter, side length and apothem have each been computed
    once and are held, its interior angle has not been computed; reading its
    area or its perimeter computes nothing more. *)
Theorem returned_polygon_is_measured m R self p :
  Polygons.__init__ m R = Ok self →
  Polygons.max_efficiency_polygon self = Ok p →
  Polygon.calls Polygon.Area p = 1
  ∧ Polygon.calls Polygon.Perimeter p = 1
  ∧ Polygon.calls Polygon.SideLength p = 1
  ∧ Polygon.calls Polygon.Apothem p = 1
  ∧ Polygon.calls Polygon.InteriorAngle p = 0
  ∧ Polygon.__dict__ p !! "interior_angle" = None
  ∧ (Polygon.area p).2 = p
  ∧ (Polygon.perimeter p).2 = p.
Proof.
  unfold Polygons.__init__. destruct (Z.ltb_spec m 3) as [|Hm]; [done|].
  intros [= <-] Hmax.
  destruct (max_efficiency_polygon_cases m R Hm)
    as [[_ Hraise]|[_ (n & _ & Hok)]]; [congruence|].
  assert (p = measured n R) as -> by congruence.
  pose proof (measured_tally n R) as Htally.
  assert (Hcached : ∀ d, (tally d [Polygon.Read Polygon.Area;
                                   Polygon.Read Polygon.Perimeter]).2 = true →
            (Polygon.getter d (measured n R)).2 = measured n R).
  { intros d Hd. rewrite <-Htally in Hd. cbn [snd] in Hd.
    apply bool_decide_eq_true in Hd as [v Hv].
    by rewrite (getter_cached d _ v Hv). }
  split_and!.
  - exact (f_equal fst (Htally Polygon.Area)).
  - exact (f_equal fst (Htally Polygon.Perimeter)).
  - exact (f_equal fst (Htally Polygon.SideLength)).
  - exact (f_equal fst (Htally Polygon.Apothem)).
  - exact (f_equal fst (Htally Polygon.InteriorAngle)).
  - pose proof (f_equal snd (Htally Polygon.InteriorAngle)) as Hc.
    cbn [snd] in Hc. apply bool_decide_eq_false in Hc.
    by apply eq_None_not_Some.
  - by apply (Hcached Polygon.Area).
  - by apply (Hcached Polygon.Perimeter).
Qed.

End Sequence.

Section Comparison.
Context {A : Arith}.
Import Polygon.

(** X11.  [__gt__] orders polygons strictly by vertex count: no polygon is
    greater than itself, of two polygons at most one is greater than the
    other, the order is transitive, and polygons that are equal are not
    ordered; of two polygons one is greater or their vertex counts are
    equal. *)
Theorem gt_is_a_strict_order (p q r : t) :
  __gt__ p (PolygonObject p) = Bool false
  ∧ (__gt__ p (PolygonObject q) = Bool true →
     __gt__ q (PolygonObject p) = Bool false)
  ∧ (__gt__ p (PolygonObject q) = Bool true →
     __gt__ q (PolygonObject r) = Bool true →
     __gt__ p (PolygonObject r) = Bool true)
  ∧ (__eq__ p (PolygonObject q) = Bool true →
     __gt__ p (PolygonObject q) = Bool false
     ∧ __gt__ q (PolygonObject p) = Bool false)
  ∧ (__gt__ p (PolygonObject q) = Bool true
     ∨ __gt__ q (PolygonObject p) = Bool true
     ∨ count_vertices p = count_vertices q).
Proof.
  unfold __gt__, __eq__, count_vertices, count_edges; simpl.
  destruct (Z.gtb_spec (_n p) (_n p)), (Z.gtb_spec (_n p) (_n q)),
    (Z.gtb_spec (_n q) (_n p)), (Z.gtb_spec (_n q) (_n r)),
    (Z.gtb_spec (_n p) (_n r)), (Z.eqb_spec (_n p) (_n q));
    simpl; split_and!; try done; try lia; auto; try (intros; lia).
Qed.

End Comparison.

Section ExactGeometry.
#[local] Existing Instances Exact.arith Exact.math.
Local Open Scope R_scope.

Lemma exact_ratio_decreasing n n' (R : num) :
  (3 ≤ n < n')%Z → R < 0 → ratio n' R < ratio n R.
Proof.
  intros Hn HR. rewrite !exact_ratio by (lia || lra).
  pose proof (angle_range n ltac:(lia)) as [? ?].
  pose proof (angle_range n' ltac:(lia)) as [? ?].
  pose proof (angle_decreasing n n' Hn).
  assert (cos (PI / IZR n) < cos (PI / IZR n'))
    by (apply cos_decreasing_1; lra).
  nra.
Qed.

(** X10.  In exact arithmetic and with a negative circumradius the ratio
    falls as the vertex count grows: [max_efficiency_polygon] returns the
    triangle. *)
Theorem exact_negative_circumradius_selects_triangle m (R : num) self :
  Polygons.__init__ m R = Ok self →
  R < 0 →
  ∃ p, Polygons.max_efficiency_polygon self = Ok p
       ∧ Polygon._n p = 3%Z ∧ Polygon._R p = R.
Proof.
  unfold Polygons.__init__. destruct (Z.ltb_spec m 3) as [|Hm]; [done|].
  intros [= <-] HR.
  destruct (max_efficiency_polygon_maximal (A:=Exact.arith) m R)
    as (nstar & ([? ?] & _ & Hfirst) & Hmax); [done| | |].
  - intros n Hn. apply exact_perimeter_nonzero; [lia|lra].
  - apply exact_comparable.
  - assert (nstar = 3%Z) as ->.
    { destruct (decide (nstar = 3%Z)) as [|Hne]; [done|].
      specialize (Hfirst 3%Z ltac:(lia)). apply exact_gt in Hfirst.
      pose proof (exact_ratio_decreasing 3 nstar R ltac:(lia) HR). lra. }
    exists (measured 3 R). split; [done|]. apply measured_primitives.
Qed.

(** X12.  In exact arithmetic, on every instance a program can hold: the
    area is half the perimeter times the apothem; the apothem is at most the
    circumradius in absolute value and the side at most the diameter; and
    with a positive circumradius the side, the apothem, the area and the
    perimeter are positive, and the area/perimeter ratio is half the
    apothem. *)
Theorem exact_measures (self : Polygon.t) :
  reachable self →
  let R := Polygon._R self in
  let side := (Polygon.side_length self).1 in
  let apo := (Polygon.apothem self).1 in
  let area := (Polygon.area self).1 in
  let per := (Polygon.perimeter self).1 in
  area = per * apo / 2
  ∧ Rabs apo <= Rabs R
  ∧ Rabs side <= 2 * Rabs R
  ∧ (0 < R → 0 < side ∧ 0 < apo ∧ 0 < area ∧ 0 < per ∧ area / per = apo / 2).
Proof.
  intros Hre R side apo area per.
  destruct (reachable_invariant self Hre) as (Hn & Hco & _).
  pose proof (proj1 (getter_coherent Polygon.SideLength self Hco)) as Hside.
  pose proof (proj1 (getter_coherent Polygon.Apothem self Hco)) as Hapo.
  pose proof (proj1 (getter_coherent Polygon.Area self Hco)) as Harea.
  pose proof (proj1 (getter_coherent Polygon.Perimeter self Hco)) as Hper.
  simpl in Hside, Hapo, Harea, Hper.
  subst R side apo area per.
  pose proof (angle_range _ Hn) as [Hlo Hhi].
  set (x := PI / IZR (Polygon._n self)) in *.
  pose proof (sin_gt_0 x Hlo Hhi) as Hsin.
  assert (Hcos : 0 < cos x).
  { apply cos_gt_0; [lra|]. unfold x.
    pose proof PI_RGT_0. apply IZR_le in Hn.
    assert (/ IZR (Polygon._n self) <= / 3)
      by (apply Rinv_le_contravar; lra).
    unfold Rdiv. nra. }
  pose proof (COS_bound x) as [_ Hcos1].
  pose proof (SIN_bound x) as [_ Hsin1].
  assert (HnR : 3 <= IZR (Polygon._n self)) by (by apply IZR_le in Hn).
  change (@num Exact.arith) with R in *.
  rewrite Hside, Hapo, Harea, Hper.
  split_and!.
  - field.
  - rewrite Rabs_mult, (Rabs_pos_eq (cos x)) by lra.
    pose proof (Rabs_pos (Polygon._R self)). nra.
  - rewrite !Rabs_mult, (Rabs_pos_eq (sin x)), (Rabs_pos_eq 2) by lra.
    pose proof (Rabs_pos (Polygon._R self)). nra.
  - intros HR. set (r := Polygon._R self) in *.
    assert (0 < 2 * r * sin x) by nra.
    assert (0 < r * cos x) by nra.
    assert (0 < IZR (Polygon._n self) * (2 * r * sin x)) by nra.
    split_and!; [done|done| |done|].
    + assert (0 < IZR (Polygon._n self) / 2 * (2 * r * sin x)) by nra. nra.
    + field. repeat split; lra.
Qed.

End ExactGeometry.

Section Binary64Angles.
#[local] Existing Instance Binary64.arith.

(** The vertex counts from 3 to 360 that divide 360, checked one by one. *)
Lemma binary64_divisors_of_360 :
  Forall (λ n, (360 mod n = 0) →
               num_eq (num_truediv (of_int ((n - 2) * 180)) (of_int n))
                 (of_int (180 - 360 / n)) = true)
    (seqZ 3 358).
Proof. apply (bool_decide_unpack _). by vm_compute. Qed.

(** X13.  In binary64, when the vertex count divides 360 the interior angle
    is exactly the whole number of degrees [180 - 360 / n]. *)
Theorem binary64_whole_interior_angles (M : Math Binary64.arith) self :
  reachable self →
  (Polygon._n self | 360) →
  num_eq (Polygon.interior_angle self).1 (of_int (180 - 360 / Polygon._n self))
  = true.
Proof.
  intros Hre Hdiv.
  destruct (reachable_invariant self Hre) as (Hn & Hco & _).
  change (Polygon.interior_angle self)
    with (Polygon.getter Polygon.InteriorAngle self).
  rewrite (proj1 (getter_coherent Polygon.InteriorAngle self Hco)).
  assert (Polygon._n self ≤ 360) by (apply Z.divide_pos_le; [lia|done]).
  pose proof binary64_divisors_of_360 as Hall.
  rewrite Forall_seqZ in Hall. apply Hall; [lia|].
  apply Z.mod_divide; [lia|done].
Qed.

End Binary64Angles.

(** *** Textual representation *)







Section Representation.
Context {A : Arith} {M : Math A} {S : Str A}.


End Representation.

(** *** Concrete inputs for the further properties *)

Section FurtherInputs.
#[local] Existing Instances Exact.arith Exact.math.

Lemma triangle_reachable : reachable (fresh 3 (of_int 1)).
Proof. by apply (reachable_init 3 (of_int 1)). Qed.



Lemma mutations_compose_witness :
  3 ≤ 4 ∧ 3 ≤ 5
  ∧ Polygon.exec (Polygon.exec (fresh 3 (of_int 1)) (Polygon.SetCountVertices 4))
      (Polygon.SetCountVertices 5)
    = Polygon.exec (fresh 3 (of_int 1)) (Polygon.SetCountVertices 5).
Proof.
  assert (H4 : 3 ≤ 4) by lia. assert (H5 : 3 ≤ 5) by lia.
  split; [exact H4|]. split; [exact H5|].
  exact (proj1 (mutations_compose (fresh 3 (of_int 1)) 4 5
                  (of_int 1) (of_int 1) H4 H5)).
Defined.

Lemma reads_are_transparent_witness :
  reachable (fresh 3 (of_int 1))
  ∧ Polygon._n (Polygon.run (fresh 3 (of_int 1))
                  (Polygon.Read <$> [Polygon.Area])) = 3.
Proof.
  split; [exact triangle_reachable|].
  exact (proj1 (reads_are_transparent (fresh 3 (of_int 1)) [Polygon.Area]
                  Polygon.Area triangle_reachable)).
Defined.

Lemma pass_from_any_cursor_witness :
  3 ≤ 4
  ∧ PolygonIterator.consume (PolygonIterator.mk 5 (of_int 1) 4)
    = ((λ n, fresh n (of_int 1)) <$> seqZ 4 (5 + 1 - 4), StopIteration,
       PolygonIterator.mk 5 (of_int 1) (Z.max 4 (5 + 1))).
Proof.
  assert (H4 : 3 ≤ 4) by lia. split; [exact H4|].
  exact (proj1 (pass_from_any_cursor 5 (of_int 1) 4 H4)).
Defined.


Lemma returned_polygon_is_measured_witness :
  Polygons.__init__ 5 (of_int 1) = Ok (Polygons.mk 5 (of_int 1))
  ∧ Polygons.max_efficiency_polygon (Polygons.mk 5 (of_int 1))
    = Ok (measured 5 (of_int 1))
  ∧ Polygon.calls Polygon.Area (measured 5 (of_int 1)) = 1.
Proof.
  assert (Hmax : Polygons.max_efficiency_polygon (Polygons.mk 5 (of_int 1))
                 = Ok (measured 5 (of_int 1))).
  { apply exact_max_efficiency_polygon; [lia|simpl; lra]. }
  split; [reflexivity|]. split; [exact Hmax|].
  exact (proj1 (returned_polygon_is_measured 5 (of_int 1)
                  (Polygons.mk 5 (of_int 1)) _ eq_refl Hmax)).
Defined.

Lemma exact_negative_circumradius_selects_triangle_witness :
  Polygons.__init__ 5 (of_int (-1)) = Ok (Polygons.mk 5 (of_int (-1)))
  ∧ (@of_int Exact.arith (-1) < 0)%R
  ∧ ∃ p, Polygons.max_efficiency_polygon (Polygons.mk 5 (of_int (-1))) = Ok p
         ∧ Polygon._n p = 3.
Proof.
  assert (Hneg : (@of_int Exact.arith (-1) < 0)%R) by (simpl; lra).
  split; [reflexivity|]. split; [exact Hneg|].
  destruct (exact_negative_circumradius_selects_triangle 5 (of_int (-1))
              (Polygons.mk 5 (of_int (-1))) eq_refl Hneg) as (p & Hp & Hn & _).
  exists p. split; [exact Hp|exact Hn].
Defined.

Lemma exact_measures_witness :
  reachable (fresh 3 (of_int 1))
  ∧ ((Polygon.area (fresh 3 (of_int 1))).1
     = (Polygon.perimeter (fresh 3 (of_int 1))).1
       * (Polygon.apothem (fresh 3 (of_int 1))).1 / 2)%R.
Proof.
  split; [exact triangle_reachable|].
  exact (proj1 (exact_measures _ triangle_reachable)).
Defined.

End FurtherInputs.

Lemma binary64_whole_interior_angles_witness :
  reachable (M:=Binary64.math (λ x, x) (λ x, x)) (fresh 6 (of_int 2))
  ∧ (6 | 360)
  ∧ num_eq
      (Polygon.interior_angle (A:=Binary64.arith) (fresh 6 (of_int 2))).1
      (of_int 120) = true.
Proof.
  assert (Hre : reachable (M:=Binary64.math (λ x, x) (λ x, x))
                  (fresh 6 (of_int 2)))
    by (by apply (reachable_init 6 (of_int 2))).
  assert (Hdiv : (6 | 360)) by (by exists 60).
  split; [exact Hre|]. split; [exact Hdiv|].
  exact (binary64_whole_interior_angles _ _ Hre Hdiv).
Defined.
